(** * TON Access MCP: the endpoint façade of [ton-access-mcp.ts]

    A shallow embedding of the class [TonAccessMCP] and of the standalone
    functions that delegate to it, followed by the properties of the
    endpoint URLs they produce.

    Conventions of the embedding:
    - [undefined] (an omitted argument or an omitted optional field) is
      [None];
    - the string-literal union types [Network], [EdgeProtocol] and
      [ProtocolFormat] are inductive types, each with the string it
      denotes;
    - a [number] that holds an integer is a [Z] and is printed in decimal.
      That is how a template literal prints a safe integer, one of
      magnitude at most 2^53 - 1; a larger value is a double that it prints
      from its shortest digits, and in exponent notation from 10^21 on, so
      every theorem that states the printed version carries the bound
      [safeAccessVersion]. Fractions, NaN and the infinities are left out.
      A [number] that holds a weight is a [Q];
    - an [async] method is a function from the ambient [World] to a settled
      promise and the world it leaves behind. *)

From Stdlib Require Import ZArith QArith Qround Lqa Lia Ascii.
From stdpp Require Import base strings list gmap pretty.
Close Scope Q_scope.

(** ** Types of [ton-access-mcp.ts] *)

(** [type Network = "mainnet" | "testnet"] *)
Inductive Network : Type := mainnet | testnet.

(** [type EdgeProtocol = "toncenter-api-v2" | "ton-api-v4" | "adnl-proxy"] *)
Inductive EdgeProtocol : Type := toncenter_api_v2 | ton_api_v4 | adnl_proxy.

(** [type ProtocolFormat = "default" | "json-rpc" | "rest"] *)
Inductive ProtocolFormat : Type := fmt_default | fmt_json_rpc | fmt_rest.

#[global] Instance Network_eq_dec : EqDecision Network.
Proof. solve_decision. Defined.

#[global] Instance EdgeProtocol_eq_dec : EqDecision EdgeProtocol.
Proof. solve_decision. Defined.

#[global] Instance ProtocolFormat_eq_dec : EqDecision ProtocolFormat.
Proof. solve_decision. Defined.

(** The string a [Network] literal is. *)
Definition Network_str (n : Network) : string :=
  match n with
  | mainnet => "mainnet"
  | testnet => "testnet"
  end.

(** The string an [EdgeProtocol] literal is. *)
Definition EdgeProtocol_str (p : EdgeProtocol) : string :=
  match p with
  | toncenter_api_v2 => "toncenter-api-v2"
  | ton_api_v4 => "ton-api-v4"
  | adnl_proxy => "adnl-proxy"
  end.

(** The string a [ProtocolFormat] literal is. *)
Definition ProtocolFormat_str (f : ProtocolFormat) : string :=
  match f with
  | fmt_default => "default"
  | fmt_json_rpc => "json-rpc"
  | fmt_rest => "rest"
  end.

(** [interface TonAccessConfig]: every field is optional. *)
Record TonAccessConfig : Type := mkConfig {
  network : option Network;
  host : option string;
  accessVersion : option Z;
  protocol : option ProtocolFormat
}.

(** The [Mngr] member of [interface TonAccessNode]. *)
Record MngrInfo : Type := mkMngr {
  updated : string;
  health : gmap string bool;
  successTS : Z;
  errors : list string;
  code : Z;
  text : string
}.

(** [interface TonAccessNode] *)
Record TonAccessNode : Type := mkNode {
  NodeId : string;
  BackendName : string;
  Ip : string;
  Weight : Q;
  Healthy : string;
  Mngr : MngrInfo
}.

(** [interface AdnlProxyEndpointResult] *)
Record AdnlProxyEndpointResult : Type := mkAdnl {
  endpoint : string;
  publicKey : string
}.

(** ** JavaScript values *)

(** [new Error(message)] *)
Record Error : Type := mkError { message : string }.

(** ToBoolean on the types the configuration holds. *)
Class Truthy (A : Type) := truthy : A -> bool.

(** A string is falsy exactly when it is empty. *)
#[global] Instance Truthy_string : Truthy string :=
  fun s => negb (String.eqb s "").

(** An integer-valued number is falsy exactly when it is zero. *)
#[global] Instance Truthy_number : Truthy Z :=
  fun z => negb (Z.eqb z 0).

(** Both [Network] literals are non-empty strings. *)
#[global] Instance Truthy_Network : Truthy Network :=
  fun n => truthy (Network_str n).

(** A boolean is its own truth value. *)
#[global] Instance Truthy_boolean : Truthy bool :=
  fun b => b.

(** ToBoolean of a value that may be [undefined]. *)
Definition truthy_opt {A : Type} `{Truthy A} (v : option A) : bool :=
  match v with
  | Some a => truthy a
  | None => false
  end.

(** [v || d] where [v] may be [undefined]. *)
Definition or_else {A : Type} `{Truthy A} (v : option A) (d : A) : A :=
  match v with
  | Some a => if truthy a then a else d
  | None => d
  end.

Notation "v ||| d" := (or_else v d) (at level 50, left associativity).

(** [`${n}`] for an integer-valued number: its decimal digits, which is
    what the program prints when [n] is a safe integer (see
    [isSafeInteger]); past that bound the program prints a double and this
    function does not follow it. *)
Definition Number_toString (n : Z) : string := pretty n.

(** [Number.MAX_SAFE_INTEGER], 2^53 - 1. *)
Definition MAX_SAFE_INTEGER : Z := 9007199254740991.

(** [Number.isSafeInteger(n)] for an integer [n]: every integer in this
    range is a double of its own, printed digit for digit. *)
Definition isSafeInteger (n : Z) : Prop :=
  (- MAX_SAFE_INTEGER ≤ n ≤ MAX_SAFE_INTEGER)%Z.

(** The access version of a configuration, when one is supplied, is a safe
    integer. *)
Definition safeAccessVersion (config : option TonAccessConfig) : Prop :=
  ∀ v : Z, config ≫= accessVersion = Some v → isSafeInteger v.

(** ** The world an [async] method runs in

    Whatever a method body could read or change besides its arguments. *)

(** Modelled from the spec: the [FleetSnapshot] of the data model, the
    node list a fetch returned and the instant of that fetch (in
    milliseconds); no file under src/ declares it. *)
Record FleetSnapshot : Type := mkSnapshot {
  nodes : list TonAccessNode;
  fetchedAt : Z
}.

Record World : Type := mkWorld {
  (** [Date.now()], in milliseconds *)
  clock : Z;
  (** the last fleet snapshot kept by the process, if any *)
  cache : option FleetSnapshot;
  (** whether a request to the manager would succeed *)
  managerUp : bool;
  (** number of [fetch] calls issued so far *)
  fetchCalls : nat;
  (** number of [Math.random()] draws consumed so far *)
  randomDraws : nat
}.

(** The state a promise settles in. *)
Inductive Settled (A : Type) : Type :=
| Fulfilled (a : A)
| Rejected (e : Error).

Arguments Fulfilled {A} a.
Arguments Rejected {A} e.

(** An [async] function body: run in a world, it settles and leaves a
    world behind. *)
Definition Promise (A : Type) : Type := World -> Settled A * World.

(** [return a] *)
Definition resolve {A : Type} (a : A) : Promise A :=
  fun w => (Fulfilled a, w).

(** [throw e] *)
Definition throw {A : Type} (e : Error) : Promise A :=
  fun w => (Rejected e, w).

(** [const x = await p; k] *)
Definition await {A B : Type} (p : Promise A) (k : A -> Promise B) : Promise B :=
  fun w =>
    match p w with
    | (Fulfilled a, w') => k a w'
    | (Rejected e, w') => (Rejected e, w')
    end.

Notation "'const' x '<~' p ';;' k" := (await p (fun x => k))
  (at level 10, x name, p at level 99, k at level 200).

(** ** [class TonAccessMCP] *)

Module TonAccessMCP.

(** [async getHttpEndpoint(config?)] *)
Definition getHttpEndpoint (config : option TonAccessConfig) : Promise string :=
  let network := (config ≫= network) ||| mainnet in
  let protocol :=
    if decide (config ≫= protocol = Some fmt_rest) then "" else "jsonRPC" in
  let host := (config ≫= host) ||| "ton.access.orbs.network" in
  let version := (config ≫= accessVersion) ||| 1%Z in
  resolve ("https://" +:+ host +:+ "/[node-id]/" +:+ Number_toString version
           +:+ "/" +:+ Network_str network +:+ "/toncenter-api-v2/" +:+ protocol).

(** [async getHttpEndpoints(config?, single?)] *)
Definition getHttpEndpoints (config : option TonAccessConfig)
    (single : option bool) : Promise (list string) :=
  if truthy_opt single then
    const endpoint <~ getHttpEndpoint config ;;
    resolve [endpoint]
  else
    let network := (config ≫= network) ||| mainnet in
    let protocol :=
      if decide (config ≫= protocol = Some fmt_rest) then "" else "jsonRPC" in
    let host := (config ≫= host) ||| "ton.access.orbs.network" in
    let version := (config ≫= accessVersion) ||| 1%Z in
    resolve [
      "https://" +:+ host +:+ "/node1/" +:+ Number_toString version
        +:+ "/" +:+ Network_str network +:+ "/toncenter-api-v2/" +:+ protocol;
      "https://" +:+ host +:+ "/node2/" +:+ Number_toString version
        +:+ "/" +:+ Network_str network +:+ "/toncenter-api-v2/" +:+ protocol;
      "https://" +:+ host +:+ "/node3/" +:+ Number_toString version
        +:+ "/" +:+ Network_str network +:+ "/toncenter-api-v2/" +:+ protocol
    ].

(** [async getHttpV4Endpoint(config?)] *)
Definition getHttpV4Endpoint (config : option TonAccessConfig) : Promise string :=
  if decide (config ≫= protocol = Some fmt_json_rpc) then
    throw (mkError
      "config.protocol json-rpc is not supported for getTonApiV4Endpoints")
  else
    let network := (config ≫= network) ||| mainnet in
    let host := (config ≫= host) ||| "ton.access.orbs.network" in
    let version := (config ≫= accessVersion) ||| 1%Z in
    resolve ("https://" +:+ host +:+ "/[node-id]/" +:+ Number_toString version
             +:+ "/" +:+ Network_str network +:+ "/ton-api-v4").

(** [async getHttpV4Endpoints(config?, single?)] *)
Definition getHttpV4Endpoints (config : option TonAccessConfig)
    (single : option bool) : Promise (list string) :=
  if decide (config ≫= protocol = Some fmt_json_rpc) then
    throw (mkError
      "config.protocol json-rpc is not supported for getTonApiV4Endpoints")
  else if truthy_opt single then
    const endpoint <~ getHttpV4Endpoint config ;;
    resolve [endpoint]
  else
    let network := (config ≫= network) ||| mainnet in
    let host := (config ≫= host) ||| "ton.access.orbs.network" in
    let version := (config ≫= accessVersion) ||| 1%Z in
    resolve [
      "https://" +:+ host +:+ "/node1/" +:+ Number_toString version
        +:+ "/" +:+ Network_str network +:+ "/ton-api-v4";
      "https://" +:+ host +:+ "/node2/" +:+ Number_toString version
        +:+ "/" +:+ Network_str network +:+ "/ton-api-v4";
      "https://" +:+ host +:+ "/node3/" +:+ Number_toString version
        +:+ "/" +:+ Network_str network +:+ "/ton-api-v4"
    ].

(** [async getAdnlProxyEndpoint()] *)
Definition getAdnlProxyEndpoint : Promise AdnlProxyEndpointResult :=
  resolve {| endpoint := "ws://[node-ip]:30001"; publicKey := "sample-public-key" |}.

(** [async getAdnlProxyEndpoints()] *)
Definition getAdnlProxyEndpoints : Promise (list string) :=
  resolve ["ws://node1-ip:30001"; "ws://node2-ip:30001"; "ws://node3-ip:30001"].

End TonAccessMCP.

(** ** The standalone functions

    Each builds a [TonAccessMCP], which has no fields, and calls the method
    of the same name. *)

Definition getHttpEndpoint (config : option TonAccessConfig) : Promise string :=
  TonAccessMCP.getHttpEndpoint config.

Definition getHttpEndpoints (config : option TonAccessConfig)
    (single : option bool) : Promise (list string) :=
  TonAccessMCP.getHttpEndpoints config single.

Definition getHttpV4Endpoint (config : option TonAccessConfig) : Promise string :=
  TonAccessMCP.getHttpV4Endpoint config.

Definition getHttpV4Endpoints (config : option TonAccessConfig)
    (single : option bool) : Promise (list string) :=
  TonAccessMCP.getHttpV4Endpoints config single.

Definition getAdnlProxyEndpoint : Promise AdnlProxyEndpointResult :=
  TonAccessMCP.getAdnlProxyEndpoint.

Definition getAdnlProxyEndpoints : Promise (list string) :=
  TonAccessMCP.getAdnlProxyEndpoints.

(** ** Errors the façade can settle with *)

(** The error both V4 methods throw when the configuration asks for
    json-rpc; the specification calls it [UnsupportedProtocolError]. *)
Definition UnsupportedProtocolError : Error :=
  mkError "config.protocol json-rpc is not supported for getTonApiV4Endpoints".

(** Modelled from the spec: the error of a resolution whose manager data is
    too old, with the message the design notes under src/ give for it; no
    code under src/ constructs it. *)
Definition AllNodesStaleError : Error :=
  mkError "all nodes manager's data are stale".

(** Modelled from the spec: the staleness threshold of ten minutes, in
    milliseconds; no code under src/ holds it. *)
Definition STALE_PERIOD : Z := 10 * 60 * 1000.

(** Modelled from the spec: a snapshot is stale in a world when
    [now - fetchedAt] exceeds the threshold. *)
Definition isStale (w : World) (snapshot : FleetSnapshot) : bool :=
  (STALE_PERIOD <? clock w - fetchedAt snapshot)%Z.

(** ** The URL format as the specification words it *)

(** [https://{host}/{nodeId}/{version}/{network}/{protocol}/{suffix}],
    written from the specification's sentence and not from the code. *)
Definition spec_build (host nodeId version network protocol suffix : string) : string :=
  "https://" +:+ host +:+ "/" +:+ nodeId +:+ "/" +:+ version +:+ "/" +:+ network
  +:+ "/" +:+ protocol +:+ "/" +:+ suffix.

(** The path segments of a URL: the pieces between its slashes. A string
    that ends with a slash has an empty last segment. *)
Fixpoint segments (s : string) : list string :=
  match s with
  | EmptyString => [""]
  | String c rest =>
      if Ascii.eqb c "/"%char then "" :: segments rest
      else match segments rest with
           | [] => [String c ""]
           | seg :: segs => String c seg :: segs
           end
  end.

(** Modelled from the spec: the fixed fan-out count of the multi-endpoint
    calls (policy: 3). The code names no such constant; its array literals
    have three elements. *)
Definition FAN_OUT : nat := 3.

(** ** The health filter *)

(** Modelled from the spec: the key of a node's [health] map for a
    protocol and a network, [protocol:network]. *)
Definition healthKey (p : EdgeProtocol) (n : Network) : string :=
  EdgeProtocol_str p +:+ ":" +:+ Network_str n.

(** Modelled from the spec: a node passes the filter when it is healthy
    (the flag [Healthy] is ["1"]) and its [health] map holds [true] for the
    protocol and the network; an absent key counts as unhealthy. No code
    under src/ filters nodes. *)
Definition passesFilter (p : EdgeProtocol) (n : Network) (node : TonAccessNode) : bool :=
  String.eqb (Healthy node) "1" &&
  match health (Mngr node) !! healthKey p n with
  | Some true => true
  | _ => false
  end.

(** Modelled from the spec: [select(snapshot, protocol, network)], the
    healthy candidates of a snapshot. *)
Definition select (snapshot : FleetSnapshot) (p : EdgeProtocol) (n : Network)
    : list TonAccessNode :=
  List.filter (passesFilter p n) (nodes snapshot).

(** ** The weighted selector *)

Module WeightedSelector.

(** Modelled from the spec: [totalWeight = sum(weight for each
    candidate)]; no code under src/ computes it. *)
Fixpoint totalWeight (candidates : list TonAccessNode) : Q :=
  match candidates with
  | [] => 0%Q
  | node :: rest => (Weight node + totalWeight rest)%Q
  end.

(** Modelled from the spec: the walk over the candidates that accumulates
    weights until the running sum exceeds the draw; the node at that
    point is selected. No code under src/ performs it. *)
Fixpoint walk (candidates : list TonAccessNode) (running draw : Q)
    : option TonAccessNode :=
  match candidates with
  | [] => None
  | node :: rest =>
      let running' := (running + Weight node)%Q in
      if Qlt_le_dec draw running' then Some node
      else walk rest running' draw
  end.

(** Modelled from the spec: a uniform choice among [n] candidates from a
    sample [u] of the injected random source, [0 <= u < 1]: the index
    [floor(u * n)]. *)
Definition uniformIndex (n : nat) (u : Q) : nat :=
  Z.to_nat (Qfloor (u * inject_Z (Z.of_nat n))).

(** Modelled from the spec: one selection of [pick]. [u] is the sample
    the injected random source yields, [0 <= u < 1]; the draw in
    [[0, totalWeight)] is [u * totalWeight]. *)
Definition pickOne (candidates : list TonAccessNode) (u : Q)
    : option TonAccessNode :=
  let total := totalWeight candidates in
  if Qeq_dec total 0 then candidates !! uniformIndex (length candidates) u
  else walk candidates 0 (u * total).

(** The running sum after the first [k] candidates. *)
Definition runningSum (candidates : list TonAccessNode) (k : nat) : Q :=
  totalWeight (take k candidates).

(** Modelled from the spec: the invariant [weight >= 0] of the node
    records, over a candidate sequence. *)
Definition nonNegativeWeights (candidates : list TonAccessNode) : Prop :=
  Forall (λ node, (0 <= Weight node)%Q) candidates.

End WeightedSelector.

(** ** Sample inputs *)

Module Samples.

Definition jsonRpcConfig : TonAccessConfig :=
  mkConfig (Some testnet) (Some "edge.example.org") (Some 2%Z) (Some fmt_json_rpc).

Definition restConfig : TonAccessConfig :=
  mkConfig None None None (Some fmt_rest).

Definition customConfig : TonAccessConfig :=
  mkConfig (Some testnet) (Some "edge.example.org") (Some 2%Z) None.

Definition testnetConfig : TonAccessConfig :=
  mkConfig (Some testnet) None None None.

Definition node (id : string) (weight : Q) : TonAccessNode :=
  mkNode id "ton" "10.0.0.1" weight "1"
    (mkMngr "2024-01-01T00:00:00Z"
       {[ "toncenter-api-v2:mainnet" := true ]} 1704067200 [] 200 "OK").

Definition snapshot : FleetSnapshot :=
  mkSnapshot [node "a" 1%Q; node "b" 3%Q] 1704067200000.

(** Nine minutes after the snapshot was fetched, the manager down. *)
Definition worldAfter9min : World :=
  mkWorld (1704067200000 + 9 * 60 * 1000) (Some snapshot) false 1 0.

(** Eleven minutes after the snapshot was fetched, the manager down. *)
Definition worldAfter11min : World :=
  mkWorld (1704067200000 + 11 * 60 * 1000) (Some snapshot) false 1 0.

(** A fresh process: no snapshot, nothing fetched or drawn yet. *)
Definition freshWorld : World := mkWorld 1704067200000 None true 0 0.

End Samples.

(** ** Configurations the façade cannot tell apart *)

(** Two configurations are alike for the v2 methods when both methods
    settle the same on them, in every world and for every [single]. *)
Definition alikeForV2 (c1 c2 : option TonAccessConfig) : Prop :=
  ∀ (single : option bool) (w : World),
    getHttpEndpoint c1 w = getHttpEndpoint c2 w ∧
    getHttpEndpoints c1 single w = getHttpEndpoints c2 single w.

(** The same for the V4 methods. *)
Definition alikeForV4 (c1 c2 : option TonAccessConfig) : Prop :=
  ∀ (single : option bool) (w : World),
    getHttpV4Endpoint c1 w = getHttpV4Endpoint c2 w ∧
    getHttpV4Endpoints c1 single w = getHttpV4Endpoints c2 single w.

(** ** The validation script [test/validate.ts] *)

Module Validate.

(** A value handed to [console.log] or [console.error]. *)
Inductive JsValue : Type :=
| VString (s : string)
| VNumber (n : Z)
| VAdnl (r : AdnlProxyEndpointResult).

(** One call on the console, with its arguments. *)
Inductive ConsoleCall : Type :=
| console_log (args : list JsValue)
| console_error (args : list JsValue).

(** A run of statements of the script: it moves the world on and appends to
    the console. *)
Definition Script : Type := World * list ConsoleCall → World * list ConsoleCall.

(** [console.log(...args);] *)
Definition log (args : list JsValue) : Script :=
  λ '(w, out), (w, out ++ [console_log args]).

(** [console.error(...args);] *)
Definition error (args : list JsValue) : Script :=
  λ '(w, out), (w, out ++ [console_error args]).

(** [s1; s2] *)
Definition andThen (s1 s2 : Script) : Script := λ st, s2 (s1 st).

Notation "s1 ;;; s2" := (andThen s1 s2) (at level 61, left associativity).

(** [try { const x = await p; body } catch (error) { handler }] where
    [body] and [handler] only write to the console. *)
Definition try_await {A : Type} (p : Promise A) (body : A → Script)
    (handler : Error → Script) : Script :=
  λ '(w, out),
    match p w with
    | (Fulfilled a, w') => body a (w', out)
    | (Rejected e, w') => handler e (w', out)
    end.

(** [endpoints.length] *)
Definition VLength (endpoints : list string) : JsValue :=
  VNumber (Z.of_nat (length endpoints)).

(** A line feed followed by [s], as the script's ['\n...'] literals. *)
Definition nl (s : string) : string := String "010"%char s.

(** [async function validateMCP()] *)
Definition validateMCP : Script :=
  log [VString "Starting ton-access-mcp validation..."] ;;;
  log [VString (nl "Testing TonAccessMCP class:")] ;;;
  try_await (TonAccessMCP.getHttpEndpoint None)
    (λ endpoint, log [VString "✅ getHttpEndpoint (default):"; VString endpoint])
    (λ e, error [VString "❌ getHttpEndpoint (default) failed:"; VString (message e)]) ;;;
  try_await
    (TonAccessMCP.getHttpEndpoint
       (Some (mkConfig (Some testnet) None None (Some fmt_rest))))
    (λ endpoint, log [VString "✅ getHttpEndpoint (custom):"; VString endpoint])
    (λ e, error [VString "❌ getHttpEndpoint (custom) failed:"; VString (message e)]) ;;;
  try_await (TonAccessMCP.getHttpEndpoints None None)
    (λ endpoints, log [VString "✅ getHttpEndpoints:"; VLength endpoints;
                       VString "endpoints returned"])
    (λ e, error [VString "❌ getHttpEndpoints failed:"; VString (message e)]) ;;;
  try_await (TonAccessMCP.getHttpV4Endpoint None)
    (λ endpoint, log [VString "✅ getHttpV4Endpoint:"; VString endpoint])
    (λ e, error [VString "❌ getHttpV4Endpoint failed:"; VString (message e)]) ;;;
  try_await
    (TonAccessMCP.getHttpV4Endpoint
       (Some (mkConfig None None None (Some fmt_json_rpc))))
    (λ endpoint,
       error [VString "❌ getHttpV4Endpoint should have failed with json-rpc protocol"])
    (λ e, log [VString "✅ getHttpV4Endpoint correctly failed with json-rpc protocol:";
               VString (message e)]) ;;;
  try_await (TonAccessMCP.getHttpV4Endpoints None None)
    (λ endpoints, log [VString "✅ getHttpV4Endpoints:"; VLength endpoints;
                       VString "endpoints returned"])
    (λ e, error [VString "❌ getHttpV4Endpoints failed:"; VString (message e)]) ;;;
  try_await TonAccessMCP.getAdnlProxyEndpoint
    (λ result, log [VString "✅ getAdnlProxyEndpoint:"; VAdnl result])
    (λ e, error [VString "❌ getAdnlProxyEndpoint failed:"; VString (message e)]) ;;;
  try_await TonAccessMCP.getAdnlProxyEndpoints
    (λ endpoints, log [VString "✅ getAdnlProxyEndpoints:"; VLength endpoints;
                       VString "endpoints returned"])
    (λ e, error [VString "❌ getAdnlProxyEndpoints failed:"; VString (message e)]) ;;;
  log [VString (nl "Testing standalone functions:")] ;;;
  try_await (getHttpEndpoint None)
    (λ endpoint, log [VString "✅ getHttpEndpoint function:"; VString endpoint])
    (λ e, error [VString "❌ getHttpEndpoint function failed:"; VString (message e)]) ;;;
  try_await (getHttpEndpoints None None)
    (λ endpoints, log [VString "✅ getHttpEndpoints function:"; VLength endpoints;
                       VString "endpoints returned"])
    (λ e, error [VString "❌ getHttpEndpoints function failed:"; VString (message e)]) ;;;
  try_await (getHttpV4Endpoint None)
    (λ endpoint, log [VString "✅ getHttpV4Endpoint function:"; VString endpoint])
    (λ e, error [VString "❌ getHttpV4Endpoint function failed:"; VString (message e)]) ;;;
  try_await (getHttpV4Endpoints None None)
    (λ endpoints, log [VString "✅ getHttpV4Endpoints function:"; VLength endpoints;
                       VString "endpoints returned"])
    (λ e, error [VString "❌ getHttpV4Endpoints function failed:"; VString (message e)]) ;;;
  try_await getAdnlProxyEndpoint
    (λ result, log [VString "✅ getAdnlProxyEndpoint function:"; VAdnl result])
    (λ e, error [VString "❌ getAdnlProxyEndpoint function failed:";
                 VString (message e)]) ;;;
  try_await getAdnlProxyEndpoints
    (λ endpoints, log [VString "✅ getAdnlProxyEndpoints function:"; VLength endpoints;
                       VString "endpoints returned"])
    (λ e, error [VString "❌ getAdnlProxyEndpoints function failed:";
                 VString (message e)]) ;;;
  log [VString (nl "Validation complete!")].

(** Whether a console call is a [console.log]. *)
Definition isLog (c : ConsoleCall) : bool :=
  match c with
  | console_log _ => true
  | console_error _ => false
  end.

End Validate.

(** * Properties *)

Import Samples.

(** ** Strings and path segments *)

Lemma string_app_assoc (a b c : string) : (a +:+ b) +:+ c = a +:+ (b +:+ c).
Proof.
  induction a as [|ch a IH]; [reflexivity|].
  change (String ch ((a +:+ b) +:+ c) = String ch (a +:+ (b +:+ c))).
  by rewrite IH.
Qed.

Lemma segments_nonempty (s : string) : segments s ≠ [].
Proof.
  induction s as [|ch s IH]; [done|].
  cbn [segments]. destruct (Ascii.eqb ch "/"); [done|].
  by destruct (segments s).
Qed.

(** Cutting a string at a slash cuts its segment list in two. *)
Lemma segments_app_slash (pre s : string) :
  segments (pre +:+ String "/" s) = segments pre ++ segments s.
Proof.
  induction pre as [|ch pre IH]; [reflexivity|].
  change (String ch pre +:+ String "/" s) with (String ch (pre +:+ String "/" s)).
  cbn [segments]. rewrite IH.
  destruct (Ascii.eqb ch "/"); [reflexivity|].
  pose proof (segments_nonempty pre) as Hne.
  destruct (segments pre) as [|seg segs]; [done|reflexivity].
Qed.

(** ** How each method runs *)

Ltac unfold_facade :=
  unfold getHttpEndpoint, getHttpEndpoints, getHttpV4Endpoint, getHttpV4Endpoints,
    getAdnlProxyEndpoint, getAdnlProxyEndpoints,
    TonAccessMCP.getHttpEndpoint, TonAccessMCP.getHttpEndpoints,
    TonAccessMCP.getHttpV4Endpoint, TonAccessMCP.getHttpV4Endpoints,
    TonAccessMCP.getAdnlProxyEndpoint, TonAccessMCP.getAdnlProxyEndpoints,
    await, resolve, throw.

(** [getHttpEndpoint] always fulfils, and leaves the world as it found it. *)
Lemma getHttpEndpoint_fulfils (config : option TonAccessConfig) (w : World) :
  ∃ url, ∀ w', getHttpEndpoint config w' = (Fulfilled url, w').
Proof. unfold_facade. eexists. intros w'. reflexivity. Qed.

(** [getHttpV4Endpoint] fulfils unless the format is json-rpc. *)
Lemma getHttpV4Endpoint_fulfils (config : option TonAccessConfig) :
  config ≫= protocol ≠ Some fmt_json_rpc →
  ∃ url, ∀ w, getHttpV4Endpoint config w = (Fulfilled url, w).
Proof.
  intros Hfmt. unfold_facade. case_decide; [done|].
  eexists. intros w. reflexivity.
Qed.

(** With json-rpc both V4 methods reject at their first statement. *)
Lemma getHttpV4_rejects (config : option TonAccessConfig) (single : option bool)
    (w : World) :
  config ≫= protocol = Some fmt_json_rpc →
  getHttpV4Endpoint config w = (Rejected UnsupportedProtocolError, w) ∧
  getHttpV4Endpoints config single w = (Rejected UnsupportedProtocolError, w).
Proof. intros Hfmt. unfold_facade. by case_decide. Qed.

(** The version a URL carries is a safe integer when the supplied one is:
    the default 1 is safe. *)
Lemma effective_version_safe (config : option TonAccessConfig) :
  safeAccessVersion config → isSafeInteger ((config ≫= accessVersion) ||| 1%Z).
Proof.
  intros Hsafe. destruct (config ≫= accessVersion) as [v|] eqn:Hv.
  - unfold or_else, truthy, Truthy_number.
    destruct (Z.eqb_spec v 0); cbn [negb]; [|by apply Hsafe].
    unfold isSafeInteger, MAX_SAFE_INTEGER. lia.
  - unfold or_else, isSafeInteger, MAX_SAFE_INTEGER. lia.
Qed.

(** ** The V4 guard *)

(** C1: for every configuration whose [protocol] is json-rpc, both
    [getHttpV4Endpoint] and [getHttpV4Endpoints] (whatever [single] is)
    reject with the unsupported-protocol error, and the world is exactly
    the one the call started in: no fetch was issued, no random draw
    consumed, the cache and the clock were not touched. *)
Theorem getHttpV4_json_rpc_fails_fast (config : TonAccessConfig)
    (single : option bool) (w : World) :
  protocol config = Some fmt_json_rpc →
  getHttpV4Endpoint (Some config) w = (Rejected UnsupportedProtocolError, w) ∧
  getHttpV4Endpoints (Some config) single w = (Rejected UnsupportedProtocolError, w) ∧
  fetchCalls (getHttpV4Endpoint (Some config) w).2 = fetchCalls w ∧
  fetchCalls (getHttpV4Endpoints (Some config) single w).2 = fetchCalls w.
Proof.
  intros Hfmt.
  destruct (getHttpV4_rejects (Some config) single w Hfmt) as [-> ->].
  done.
Qed.

Lemma getHttpV4_json_rpc_fails_fast_witness :
  protocol jsonRpcConfig = Some fmt_json_rpc ∧
  getHttpV4Endpoint (Some jsonRpcConfig) freshWorld
    = (Rejected UnsupportedProtocolError, freshWorld) ∧
  getHttpV4Endpoints (Some jsonRpcConfig) (Some true) freshWorld
    = (Rejected UnsupportedProtocolError, freshWorld) ∧
  fetchCalls (getHttpV4Endpoint (Some jsonRpcConfig) freshWorld).2 = 0 ∧
  fetchCalls (getHttpV4Endpoints (Some jsonRpcConfig) (Some true) freshWorld).2 = 0.
Proof.
  split; [reflexivity|].
  apply (getHttpV4_json_rpc_fails_fast jsonRpcConfig (Some true) freshWorld).
  reflexivity.
Defined.

(** ** The URL of [getHttpEndpoint] *)

(** C2: for every configuration whose access version, when supplied, is a
    safe integer, the URL [getHttpEndpoint] returns is
    [https://{host}/{nodeId}/{version}/{network}/toncenter-api-v2/{suffix}]
    character for character, with the placeholder [[node-id]] as node id
    and the version in decimal; an omitted host is
    [ton.access.orbs.network], an omitted access version is 1, an omitted
    network is mainnet, a supplied non-empty host, non-zero version or
    network is used as given, and the suffix is [jsonRPC] unless the format
    is rest, in which case it is empty. *)
Theorem getHttpEndpoint_url_shape (config : option TonAccessConfig) (w : World) :
  safeAccessVersion config →
  ∃ (h : string) (v : Z) (n : Network) (suffix : string),
    getHttpEndpoint config w =
      (Fulfilled (spec_build h "[node-id]" (Number_toString v) (Network_str n)
                    (EdgeProtocol_str toncenter_api_v2) suffix), w)
    ∧ (config ≫= host = None → h = "ton.access.orbs.network")
    ∧ (∀ h', config ≫= host = Some h' → h' ≠ "" → h = h')
    ∧ (config ≫= accessVersion = None → v = 1%Z)
    ∧ (∀ v', config ≫= accessVersion = Some v' → v' ≠ 0%Z → v = v')
    ∧ (config ≫= network = None → n = mainnet)
    ∧ (∀ n', config ≫= network = Some n' → n = n')
    ∧ (config ≫= protocol ≠ Some fmt_rest → suffix = "jsonRPC")
    ∧ (config ≫= protocol = Some fmt_rest → suffix = "")
    ∧ isSafeInteger v.
Proof.
  intros Hsafe.
  destruct (effective_version_safe config Hsafe) as [Hlo Hhi].
  exists ((config ≫= host) ||| "ton.access.orbs.network"),
         ((config ≫= accessVersion) ||| 1%Z),
         ((config ≫= network) ||| mainnet),
         (if decide (config ≫= protocol = Some fmt_rest) then "" else "jsonRPC").
  split; [reflexivity|].
  repeat split.
  - by intros ->.
  - intros h' -> Hne. unfold or_else, truthy, Truthy_string.
    destruct (String.eqb_spec h' ""); done.
  - by intros ->.
  - intros v' -> Hne. unfold or_else, truthy, Truthy_number.
    destruct (Z.eqb_spec v' 0); done.
  - by intros ->.
  - intros n' ->. by destruct n'.
  - intros Hfmt. by case_decide.
  - intros Hfmt. by case_decide.
  - exact Hlo.
  - exact Hhi.
Qed.

Lemma getHttpEndpoint_url_shape_witness :
  safeAccessVersion (Some customConfig) ∧
  getHttpEndpoint (Some customConfig) freshWorld
    = (Fulfilled "https://edge.example.org/[node-id]/2/testnet/toncenter-api-v2/jsonRPC",
       freshWorld) ∧
  ∃ (h : string) (v : Z) (n : Network) (suffix : string),
    getHttpEndpoint (Some customConfig) freshWorld =
      (Fulfilled (spec_build h "[node-id]" (Number_toString v) (Network_str n)
                    (EdgeProtocol_str toncenter_api_v2) suffix), freshWorld)
    ∧ (Some customConfig ≫= host = None → h = "ton.access.orbs.network")
    ∧ (∀ h', Some customConfig ≫= host = Some h' → h' ≠ "" → h = h')
    ∧ (Some customConfig ≫= accessVersion = None → v = 1%Z)
    ∧ (∀ v', Some customConfig ≫= accessVersion = Some v' → v' ≠ 0%Z → v = v')
    ∧ (Some customConfig ≫= network = None → n = mainnet)
    ∧ (∀ n', Some customConfig ≫= network = Some n' → n = n')
    ∧ (Some customConfig ≫= protocol ≠ Some fmt_rest → suffix = "jsonRPC")
    ∧ (Some customConfig ≫= protocol = Some fmt_rest → suffix = "")
    ∧ isSafeInteger v.
Proof.
  assert (safeAccessVersion (Some customConfig)) as Hsafe.
  { intros v Hv. injection Hv as <-. unfold isSafeInteger, MAX_SAFE_INTEGER. lia. }
  split; [exact Hsafe|]. split; [reflexivity|].
  exact (getHttpEndpoint_url_shape (Some customConfig) freshWorld Hsafe).
Defined.

(** C3, as the code has it: for every configuration whose format is rest,
    the URL [getHttpEndpoint] returns has no [jsonRPC] segment after the
    protocol; its suffix is empty, and the slash the template puts before the
    suffix stays, so the URL ends with [toncenter-api-v2/]: its last two
    segments are the protocol and the empty string. *)
Theorem getHttpEndpoint_rest_suffix_empty (config : option TonAccessConfig)
    (w : World) :
  config ≫= protocol = Some fmt_rest →
  ∃ pre,
    getHttpEndpoint config w = (Fulfilled (pre +:+ "/toncenter-api-v2/"), w) ∧
    segments (pre +:+ "/toncenter-api-v2/") = segments pre ++ ["toncenter-api-v2"; ""].
Proof.
  intros Hfmt.
  exists ("https://" +:+ ((config ≫= host) ||| "ton.access.orbs.network")
          +:+ "/[node-id]/" +:+ Number_toString ((config ≫= accessVersion) ||| 1%Z)
          +:+ "/" +:+ Network_str ((config ≫= network) ||| mainnet)).
  split.
  - unfold_facade. case_decide; [|done].
    rewrite !string_app_assoc. reflexivity.
  - apply segments_app_slash.
Qed.

Lemma getHttpEndpoint_rest_suffix_empty_witness :
  Some restConfig ≫= protocol = Some fmt_rest ∧
  ∃ pre,
    getHttpEndpoint (Some restConfig) freshWorld
      = (Fulfilled (pre +:+ "/toncenter-api-v2/"), freshWorld) ∧
    segments (pre +:+ "/toncenter-api-v2/") = segments pre ++ ["toncenter-api-v2"; ""].
Proof.
  split; [reflexivity|].
  apply (getHttpEndpoint_rest_suffix_empty (Some restConfig) freshWorld).
  reflexivity.
Defined.

(** C3, as the claim words it, fails: with the format rest and everything
    else omitted the URL ends with a slash. *)
Lemma getHttpEndpoint_rest_trailing_slash :
  Some restConfig ≫= protocol = Some fmt_rest ∧
  getHttpEndpoint (Some restConfig) freshWorld =
    (Fulfilled ("https://ton.access.orbs.network/[node-id]/1/mainnet/toncenter-api-v2"
                +:+ "/"), freshWorld) ∧
  last (segments "https://ton.access.orbs.network/[node-id]/1/mainnet/toncenter-api-v2/")
    = Some "".
Proof. repeat split. Qed.

(** ** Single and multiple endpoints *)

(** C4: for every configuration, [getHttpEndpoints(config, true)] fulfils
    with a list of length exactly one whose element is the URL
    [getHttpEndpoint(config)] fulfils with in the same world (the same
    random source, clock and cache). *)
Theorem getHttpEndpoints_single (config : option TonAccessConfig) (w : World) :
  ∃ url,
    getHttpEndpoint config w = (Fulfilled url, w) ∧
    getHttpEndpoints config (Some true) w = (Fulfilled [url], w) ∧
    length [url] = 1.
Proof.
  destruct (getHttpEndpoint_fulfils config w) as [url Hrun].
  exists url. split; [apply Hrun|]. split; [|reflexivity].
  cbv beta iota delta [getHttpEndpoints TonAccessMCP.getHttpEndpoints await
                       truthy_opt truthy Truthy_boolean].
  change (TonAccessMCP.getHttpEndpoint config w) with (getHttpEndpoint config w).
  by rewrite Hrun.
Qed.

(** Among node ids of one length, the node id of a URL determines the URL:
    two URLs built from the same other parts are equal only if their node ids
    are. *)
Lemma spec_build_nodeId_inj (h v n p suffix a b : string) :
  String.length a = String.length b →
  spec_build h a v n p suffix = spec_build h b v n p suffix → a = b.
Proof.
  unfold spec_build. intros Hlen Heq.
  apply (inj (String.append "https://")), (inj (String.append h)),
    (inj (String.append "/")) in Heq.
  revert b Hlen Heq.
  induction a as [|ch a IH]; intros [|ch' b] Hlen Heq; try done.
  injection Hlen as Hlen.
  change (String ch (a +:+ "/" +:+ v +:+ "/" +:+ n +:+ "/" +:+ p +:+ "/" +:+ suffix)
          = String ch' (b +:+ "/" +:+ v +:+ "/" +:+ n +:+ "/" +:+ p +:+ "/" +:+ suffix))
    in Heq.
  injection Heq as -> Heq. f_equal. by apply IH.
Qed.

(** C8, as the code has it: for every configuration, [getHttpEndpoints]
    with [single] false or omitted fulfils with exactly [FAN_OUT] = 3 URLs,
    the v2 URLs of the three pairwise distinct placeholder nodes [node1],
    [node2] and [node3], no two of them equal; the method reads no fleet
    data, so the list is the same in every world, whatever healthy
    candidates the cached snapshot has. *)
Theorem getHttpEndpoints_fan_out (config : option TonAccessConfig) (w : World) :
  ∃ (urls ids : list string) (h v n suffix : string),
    getHttpEndpoints config None w = (Fulfilled urls, w) ∧
    getHttpEndpoints config (Some false) w = (Fulfilled urls, w) ∧
    urls = (λ id, spec_build h id v n "toncenter-api-v2" suffix) <$> ids ∧
    ids = ["node1"; "node2"; "node3"] ∧
    NoDup ids ∧ NoDup urls ∧
    length urls = FAN_OUT ∧
    ∀ w', (getHttpEndpoints config None w').1 = Fulfilled urls ∧
          (getHttpEndpoints config (Some false) w').1 = Fulfilled urls.
Proof.
  exists
    ((λ id, spec_build ((config ≫= host) ||| "ton.access.orbs.network") id
              (Number_toString ((config ≫= accessVersion) ||| 1%Z))
              (Network_str ((config ≫= network) ||| mainnet)) "toncenter-api-v2"
              (if decide (config ≫= protocol = Some fmt_rest) then "" else "jsonRPC"))
       <$> ["node1"; "node2"; "node3"]),
    ["node1"; "node2"; "node3"].
  eexists _, _, _, _.
  assert (NoDup ["node1"; "node2"; "node3"]) as Hids
    by (by apply (bool_decide_unpack _)).
  split; [reflexivity|]. split; [reflexivity|]. split; [reflexivity|].
  split; [reflexivity|]. split; [exact Hids|].
  split; [|split; [reflexivity|by intros w']].
  apply NoDup_fmap_2_strong; [|exact Hids].
  intros a b Ha Hb. apply spec_build_nodeId_inj.
  set_unfold in Ha. set_unfold in Hb.
  destruct Ha as [->|[->|[->|[]]]]; destruct Hb as [->|[->|[->|[]]]]; reflexivity.
Qed.

(** C8, as the claim words it, fails: in a world whose cached snapshot has
    no healthy candidate for toncenter-api-v2 on testnet, the call for
    testnet still fulfils with three URLs, more than there are healthy
    candidates. *)
Lemma getHttpEndpoints_more_urls_than_healthy :
  cache worldAfter9min = Some snapshot ∧
  select snapshot toncenter_api_v2 testnet = [] ∧
  getHttpEndpoints (Some testnetConfig) None worldAfter9min =
    (Fulfilled
       ["https://ton.access.orbs.network/node1/1/testnet/toncenter-api-v2/jsonRPC";
        "https://ton.access.orbs.network/node2/1/testnet/toncenter-api-v2/jsonRPC";
        "https://ton.access.orbs.network/node3/1/testnet/toncenter-api-v2/jsonRPC"],
     worldAfter9min) ∧
  length (select snapshot toncenter_api_v2 testnet) < 3.
Proof. repeat split. vm_compute. lia. Qed.

(** ** The V4 URL *)



(** C9: [getHttpV4Endpoint] and [getHttpV4Endpoints] reject exactly when
    the configuration's [protocol] is json-rpc, and then with the
    unsupported-protocol error only; for every other configuration,
    whatever its network, host and access version, both fulfil. *)
Theorem getHttpV4_rejects_iff_json_rpc (config : option TonAccessConfig)
    (single : option bool) (w : World) :
  ((∃ e, (getHttpV4Endpoint config w).1 = Rejected e)
     ↔ config ≫= protocol = Some fmt_json_rpc) ∧
  ((∃ e, (getHttpV4Endpoints config single w).1 = Rejected e)
     ↔ config ≫= protocol = Some fmt_json_rpc) ∧
  (∀ e, (getHttpV4Endpoint config w).1 = Rejected e → e = UnsupportedProtocolError) ∧
  (∀ e, (getHttpV4Endpoints config single w).1 = Rejected e
        → e = UnsupportedProtocolError) ∧
  (config ≫= protocol ≠ Some fmt_json_rpc →
     ∃ url urls,
       getHttpV4Endpoint config w = (Fulfilled url, w) ∧
       getHttpV4Endpoints config single w = (Fulfilled urls, w)).
Proof.
  destruct (decide (config ≫= protocol = Some fmt_json_rpc)) as [Hfmt|Hfmt].
  - destruct (getHttpV4_rejects config single w Hfmt) as [-> ->]. cbn.
    repeat split; try done; try (by eexists); by intros e [= <-].
  - assert (∃ url urls,
       getHttpV4Endpoint config w = (Fulfilled url, w) ∧
       getHttpV4Endpoints config single w = (Fulfilled urls, w)) as (url & urls & Hone & Hmany).
    { destruct (getHttpV4Endpoint_fulfils config Hfmt) as [url Hrun].
      exists url. unfold getHttpV4Endpoints, TonAccessMCP.getHttpV4Endpoints.
      case_decide; [done|].
      destruct (truthy_opt single).
      - exists [url]. split; [apply Hrun|]. unfold await.
        change (TonAccessMCP.getHttpV4Endpoint config w)
          with (getHttpV4Endpoint config w).
        by rewrite Hrun.
      - eexists. split; [apply Hrun|]. reflexivity. }
    rewrite Hone, Hmany. cbn.
    repeat split; try done; try (by intros [e ?]); by eauto.
Qed.

(** ** Determinism *)

(** C10: every façade operation is deterministic: what a call settles with
    depends on its arguments only, not on the world it runs in, so two calls
    with equal arguments settle alike whenever they are made; and
    [getAdnlProxyEndpoint] fulfils with one fixed pair on every call. *)
Theorem facade_deterministic (config : option TonAccessConfig) (single : option bool)
    (w1 w2 : World) :
  (getHttpEndpoint config w1).1 = (getHttpEndpoint config w2).1 ∧
  (getHttpEndpoints config single w1).1 = (getHttpEndpoints config single w2).1 ∧
  (getHttpV4Endpoint config w1).1 = (getHttpV4Endpoint config w2).1 ∧
  (getHttpV4Endpoints config single w1).1 = (getHttpV4Endpoints config single w2).1 ∧
  (getAdnlProxyEndpoints w1).1 = (getAdnlProxyEndpoints w2).1 ∧
  (getAdnlProxyEndpoint w1).1 = (getAdnlProxyEndpoint w2).1 ∧
  getAdnlProxyEndpoint w1 =
    (Fulfilled {| endpoint := "ws://[node-ip]:30001"; publicKey := "sample-public-key" |},
     w1).
Proof.
  do 2 unfold_facade.
  repeat split; destruct (truthy_opt single); repeat case_decide; done.
Qed.

(** ** Staleness *)

(** C5, as the code has it: [getHttpEndpoint] keeps no fleet snapshot and
    attempts no refresh. For every cached snapshot and a manager that does
    not answer, whether the snapshot is within the ten-minute threshold or
    past it, the call fulfils with its URL, issues no fetch and leaves the
    cached snapshot in place; it does not reject with the stale-data
    error. *)
Theorem getHttpEndpoint_ignores_snapshot_age (config : option TonAccessConfig)
    (w : World) (snapshot : FleetSnapshot) :
  cache w = Some snapshot →
  managerUp w = false →
  ∃ url,
    getHttpEndpoint config w = (Fulfilled url, w) ∧
    (getHttpEndpoint config w).1 ≠ Rejected AllNodesStaleError ∧
    cache (getHttpEndpoint config w).2 = Some snapshot ∧
    fetchCalls (getHttpEndpoint config w).2 = fetchCalls w.
Proof.
  intros Hcache Hdown.
  destruct (getHttpEndpoint_fulfils config w) as [url Hrun].
  exists url. rewrite Hrun. by repeat split.
Qed.

Lemma getHttpEndpoint_ignores_snapshot_age_witness :
  cache worldAfter9min = Some snapshot ∧
  managerUp worldAfter9min = false ∧
  isStale worldAfter9min snapshot = false ∧
  ∃ url,
    getHttpEndpoint None worldAfter9min = (Fulfilled url, worldAfter9min) ∧
    (getHttpEndpoint None worldAfter9min).1 ≠ Rejected AllNodesStaleError ∧
    cache (getHttpEndpoint None worldAfter9min).2 = Some snapshot ∧
    fetchCalls (getHttpEndpoint None worldAfter9min).2 = fetchCalls worldAfter9min.
Proof.
  split; [reflexivity|]. split; [reflexivity|]. split; [reflexivity|].
  apply (getHttpEndpoint_ignores_snapshot_age None worldAfter9min snapshot);
    reflexivity.
Defined.

(** C5, as the claim words it, fails: eleven minutes after the snapshot was
    fetched, past the threshold, with the manager down, the call fulfils
    with the placeholder URL instead of rejecting. *)
Lemma getHttpEndpoint_stale_snapshot_fulfils :
  cache worldAfter11min = Some snapshot ∧
  isStale worldAfter11min snapshot = true ∧
  managerUp worldAfter11min = false ∧
  getHttpEndpoint None worldAfter11min =
    (Fulfilled "https://ton.access.orbs.network/[node-id]/1/mainnet/toncenter-api-v2/jsonRPC",
     worldAfter11min).
Proof. repeat split. Qed.

(** ** The weighted selector *)

Section WeightedSelection.

Import WeightedSelector.

Local Open Scope Q_scope.

Lemma totalWeight_nonneg (candidates : list TonAccessNode) :
  nonNegativeWeights candidates → 0 <= totalWeight candidates.
Proof.
  induction 1 as [|node rest Hnode _ IH]; cbn [totalWeight]; lra.
Qed.

(** The running sum grows by the weight of the candidate it passes. *)
Lemma runningSum_step (candidates : list TonAccessNode) (i : nat)
    (node : TonAccessNode) :
  candidates !! i = Some node →
  runningSum candidates (S i) == runningSum candidates i + Weight node.
Proof.
  unfold runningSum. revert i.
  induction candidates as [|c rest IH]; intros [|i] Hi; try done.
  - injection Hi as ->. simpl. lra.
  - cbn [lookup list_lookup] in Hi. specialize (IH i Hi).
    change (totalWeight (c :: take (S i) rest) == totalWeight (c :: take i rest) + Weight node).
    cbn [totalWeight]. lra.
Qed.

(** The walk stops at the first candidate at which the running sum exceeds
    the draw, and it does stop when the draw is below the total. *)
Lemma walk_first_exceeding (candidates : list TonAccessNode) (running draw : Q) :
  running <= draw →
  draw < running + totalWeight candidates →
  ∃ i node,
    candidates !! i = Some node ∧
    walk candidates running draw = Some node ∧
    (∀ k, (k ≤ i)%nat → running + runningSum candidates k <= draw) ∧
    draw < running + runningSum candidates (S i).
Proof.
  revert running.
  induction candidates as [|c rest IH]; intros running Hlo Hhi.
  - cbn [totalWeight] in Hhi. lra.
  - cbn [totalWeight] in Hhi. cbn [walk].
    destruct (Qlt_le_dec draw (running + Weight c)) as [Hstop|Hgo].
    + exists 0%nat, c. repeat split; [|cbv [runningSum take totalWeight]; lra].
      intros k Hk. replace k with 0%nat by lia.
      cbv [runningSum take totalWeight]. lra.
    + destruct (IH (running + Weight c)) as (i & node & Hi & Hwalk & Hbefore & Hat);
        [lra..|].
      exists (S i), node. repeat split; [done..| |].
      * intros [|k] Hk; [cbv [runningSum take totalWeight]; lra|].
        specialize (Hbefore k ltac:(lia)).
        change (runningSum (c :: rest) (S k)) with (Weight c + runningSum rest k).
        lra.
      * change (runningSum (c :: rest) (S (S i)))
          with (Weight c + runningSum rest (S i)).
        lra.
Qed.

(** [floor x] is the integer [z] with [z <= x < z + 1]. *)
Lemma Qfloor_eq_iff (x : Q) (z : Z) :
  Qfloor x = z ↔ inject_Z z <= x ∧ x < inject_Z z + 1.
Proof.
  split.
  - intros <-. split; [apply Qfloor_le|].
    pose proof (Qlt_floor x) as Hlt. rewrite inject_Z_plus in Hlt. exact Hlt.
  - intros [Hlo Hhi].
    assert (z ≤ Qfloor x)%Z as Hge.
    { rewrite <- (Qfloor_Z z). by apply Qfloor_resp_le. }
    assert (Qfloor x < z + 1)%Z as Hlt.
    { rewrite Zlt_Qlt, inject_Z_plus. pose proof (Qfloor_le x).
      change (inject_Z 1) with 1. lra. }
    lia.
Qed.

(** The uniform index falls on [i] exactly for the samples of the [i]-th
    of [n] intervals of equal length: [i/n <= u < (i+1)/n]. *)
Lemma uniformIndex_eq_iff (n i : nat) (u : Q) :
  0 <= u →
  uniformIndex n u = i ↔
    inject_Z (Z.of_nat i) <= u * inject_Z (Z.of_nat n) ∧
    u * inject_Z (Z.of_nat n) < inject_Z (Z.of_nat i) + 1.
Proof.
  intros Hu. unfold uniformIndex. rewrite <- Qfloor_eq_iff.
  assert (0 <= u * inject_Z (Z.of_nat n)) as Hx.
  { apply Qmult_le_0_compat; [done|].
    change 0 with (inject_Z 0). rewrite <- Zle_Qle. lia. }
  assert (0 ≤ Qfloor (u * inject_Z (Z.of_nat n)))%Z as Hfloor.
  { rewrite <- (Qfloor_Z 0). by apply Qfloor_resp_le. }
  lia.
Qed.

Lemma uniformIndex_lt (n : nat) (u : Q) :
  (0 < n)%nat → 0 <= u → u < 1 → (uniformIndex n u < n)%nat.
Proof.
  intros Hn Hlo Hhi.
  destruct (uniformIndex_eq_iff n (uniformIndex n u) u Hlo) as [Hiff _].
  destruct (Hiff eq_refl) as [Hle _].
  assert (u * inject_Z (Z.of_nat n) < inject_Z (Z.of_nat n)) as Hun.
  { assert (0 < inject_Z (Z.of_nat n)) as Hpos.
    { change 0 with (inject_Z 0). rewrite <- Zlt_Qlt. lia. }
    nra. }
  assert (inject_Z (Z.of_nat (uniformIndex n u)) < inject_Z (Z.of_nat n)) as Hlt by lra.
  rewrite <- Zlt_Qlt in Hlt. lia.
Qed.

(** C6: for every non-empty candidate sequence with non-negative weights
    and every sample [0 <= u < 1] of the random source, the selector's
    [totalWeight] is the sum of the candidates' weights. When it is zero,
    the selected candidate is the one at the uniform index, which is in
    range and falls on [i] exactly for the samples of the [i]-th of
    [length candidates] equal intervals. Otherwise the draw
    [u * totalWeight] lies in [[0, totalWeight)] and the selected
    candidate is the first at which the running sum exceeds the draw:
    every running sum up to it is at most the draw, and the running sum
    that includes its weight is above the draw. *)
Theorem pickOne_weighted_selection (candidates : list TonAccessNode) (u : Q) :
  candidates ≠ [] →
  nonNegativeWeights candidates →
  0 <= u → u < 1 →
  totalWeight candidates = foldr (λ node acc, Weight node + acc) 0 candidates ∧
  (totalWeight candidates == 0 →
     pickOne candidates u = candidates !! uniformIndex (length candidates) u ∧
     (uniformIndex (length candidates) u < length candidates)%nat ∧
     is_Some (pickOne candidates u) ∧
     ∀ i : nat,
       uniformIndex (length candidates) u = i ↔
         inject_Z (Z.of_nat i) <= u * inject_Z (Z.of_nat (length candidates)) ∧
         u * inject_Z (Z.of_nat (length candidates)) < inject_Z (Z.of_nat i) + 1) ∧
  (¬ totalWeight candidates == 0 →
     0 <= u * totalWeight candidates ∧
     u * totalWeight candidates < totalWeight candidates ∧
     ∃ (i : nat) (node : TonAccessNode),
       candidates !! i = Some node ∧
       pickOne candidates u = Some node ∧
       (∀ k, (k ≤ i)%nat → runningSum candidates k <= u * totalWeight candidates) ∧
       u * totalWeight candidates < runningSum candidates (S i) ∧
       runningSum candidates (S i) == runningSum candidates i + Weight node).
Proof.
  intros Hne Hweights Hlo Hhi.
  pose proof (totalWeight_nonneg candidates Hweights) as Htotal.
  split; [|split].
  - induction candidates as [|c rest IH]; [reflexivity|]. reflexivity.
  - intros Hzero.
    assert (0 < length candidates)%nat as Hlen
      by (destruct candidates; [done|cbn; lia]).
    pose proof (uniformIndex_lt (length candidates) u Hlen Hlo Hhi) as Hidx.
    assert (pickOne candidates u
            = candidates !! uniformIndex (length candidates) u) as Hpick.
    { unfold pickOne. by destruct (Qeq_dec (totalWeight candidates) 0). }
    split; [exact Hpick|]. split; [exact Hidx|]. split.
    + rewrite Hpick. by apply lookup_lt_is_Some_2.
    + intros i. by apply uniformIndex_eq_iff.
  - intros Hpos.
    assert (0 < totalWeight candidates) as Hgt.
    { destruct (Qlt_le_dec 0 (totalWeight candidates)) as [|Hle]; [done|].
      destruct Hpos. lra. }
    assert (0 <= u * totalWeight candidates) as Hdraw0 by nra.
    assert (u * totalWeight candidates < totalWeight candidates) as Hdraw1 by nra.
    split; [exact Hdraw0|]. split; [exact Hdraw1|].
    destruct (walk_first_exceeding candidates 0 (u * totalWeight candidates))
      as (i & node & Hi & Hwalk & Hbefore & Hat); [lra..|].
    exists i, node. split; [|split; [|split; [|split]]].
    + exact Hi.
    + unfold pickOne. by destruct (Qeq_dec (totalWeight candidates) 0).
    + intros k Hk. specialize (Hbefore k Hk). lra.
    + lra.
    + by apply runningSum_step.
Qed.

Lemma pickOne_weighted_selection_witness :
  nodes snapshot ≠ [] ∧
  nonNegativeWeights (nodes snapshot) ∧
  0 <= 1 # 4 ∧ 1 # 4 < 1 ∧
  pickOne (nodes snapshot) (1 # 4) = Some (node "b" 3) ∧
  (¬ totalWeight (nodes snapshot) == 0 →
     0 <= (1 # 4) * totalWeight (nodes snapshot) ∧
     (1 # 4) * totalWeight (nodes snapshot) < totalWeight (nodes snapshot) ∧
     ∃ (i : nat) (n : TonAccessNode),
       nodes snapshot !! i = Some n ∧
       pickOne (nodes snapshot) (1 # 4) = Some n ∧
       (∀ k, (k ≤ i)%nat →
             runningSum (nodes snapshot) k <= (1 # 4) * totalWeight (nodes snapshot)) ∧
       (1 # 4) * totalWeight (nodes snapshot) < runningSum (nodes snapshot) (S i) ∧
       runningSum (nodes snapshot) (S i) == runningSum (nodes snapshot) i + Weight n).
Proof.
  assert (nodes snapshot ≠ []) as Hne by (intros Heq; discriminate Heq).
  assert (nonNegativeWeights (nodes snapshot)) as Hweights
    by (repeat constructor; cbn; lra).
  assert (0 <= 1 # 4) as Hlo by lra.
  assert (1 # 4 < 1) as Hhi by lra.
  split; [exact Hne|]. split; [exact Hweights|].
  split; [exact Hlo|]. split; [exact Hhi|].
  split; [reflexivity|].
  exact (proj2 (proj2
    (pickOne_weighted_selection (nodes snapshot) (1 # 4) Hne Hweights Hlo Hhi))).
Defined.

End WeightedSelection.

(** * Further properties of the façade *)

(** ** Strings *)

(** Two strings of one length that are followed by the same text or not:
    equal concatenations force equal heads and equal tails. *)
Lemma string_app_same_length_inj (a b r r' : string) :
  String.length a = String.length b →
  a +:+ r = b +:+ r' → a = b ∧ r = r'.
Proof.
  revert b. induction a as [|ch a IH]; intros [|ch' b] Hlen Heq; try done.
  injection Hlen as Hlen.
  change (String ch (a +:+ r) = String ch' (b +:+ r')) in Heq.
  injection Heq as -> Heq.
  destruct (IH b Hlen Heq) as [-> ->]. done.
Qed.

(** A character that is no slash extends the first segment. *)
Lemma segments_cons_no_slash (c : ascii) (s : string) :
  Ascii.eqb c "/" = false → segments s = [s] → segments (String c s) = [String c s].
Proof. intros Hc Hs. cbn [segments]. by rewrite Hc, Hs. Qed.

Lemma pretty_N_char_no_slash (d : N) : Ascii.eqb (pretty_N_char d) "/" = false.
Proof. unfold pretty_N_char. by repeat case_match. Qed.

Lemma segments_pretty_N_go (x : N) (s : string) :
  segments s = [s] → segments (pretty_N_go x s) = [pretty_N_go x s].
Proof.
  revert s. induction (N.lt_wf_0 x) as [x _ IH]; intros s Hs.
  destruct (decide (x = 0)%N) as [->|Hx]; [by rewrite pretty_N_go_0|].
  rewrite pretty_N_go_step by lia.
  apply IH; [apply N.div_lt; lia|].
  apply segments_cons_no_slash; [apply pretty_N_char_no_slash|done].
Qed.

(** The decimal form of an integer has no slash: it is one segment. *)
Lemma segments_Number_toString (v : Z) :
  segments (Number_toString v) = [Number_toString v].
Proof.
  assert (∀ p : positive, segments (pretty p) = [pretty p]) as Hpos.
  { intros p. unfold pretty, pretty_positive, pretty, pretty_N.
    case_decide; [done|]. by apply segments_pretty_N_go. }
  unfold Number_toString, pretty, pretty_Z. destruct v as [|p|p]; [done|apply Hpos|].
  change ("-" +:+ pretty p) with (String "-" (pretty p)).
  apply segments_cons_no_slash; [done|apply Hpos].
Qed.

Lemma segments_Network_str (n : Network) : segments (Network_str n) = [Network_str n].
Proof. by destruct n. Qed.

(** The segments of a string determine it. *)
Lemma segments_inj (s1 s2 : string) : segments s1 = segments s2 → s1 = s2.
Proof.
  revert s2. induction s1 as [|c1 r1 IH]; intros [|c2 r2] Heq; [done|..].
  - cbn [segments] in Heq. pose proof (segments_nonempty r2) as Hne.
    destruct (Ascii.eqb c2 "/"), (segments r2); by simplify_eq.
  - cbn [segments] in Heq. pose proof (segments_nonempty r1) as Hne.
    destruct (Ascii.eqb c1 "/"), (segments r1); by simplify_eq.
  - cbn [segments] in Heq.
    pose proof (segments_nonempty r1) as Hne1.
    pose proof (segments_nonempty r2) as Hne2.
    destruct (Ascii.eqb_spec c1 "/") as [->|Hc1], (Ascii.eqb_spec c2 "/") as [->|Hc2].
    + injection Heq as Heq. f_equal. by apply IH.
    + destruct (segments r2); by simplify_eq.
    + destruct (segments r1); by simplify_eq.
    + destruct (segments r1) as [|seg1 segs1] eqn:H1; [done|].
      destruct (segments r2) as [|seg2 segs2] eqn:H2; [done|].
      injection Heq as -> -> ->. f_equal. apply IH. congruence.
Qed.

Lemma Network_str_inj (n1 n2 : Network) : Network_str n1 = Network_str n2 → n1 = n2.
Proof. by destruct n1, n2. Qed.

(** The segments of a URL in the specification's format are the scheme, an
    empty segment, and the segments of its six parts in order. *)
Lemma segments_spec_build (h id ver net proto suffix : string) :
  segments (spec_build h id ver net proto suffix) =
    ["https:"; ""] ++ segments h ++ segments id ++ segments ver ++ segments net
    ++ segments proto ++ segments suffix.
Proof.
  change (spec_build h id ver net proto suffix)
    with ("https:" +:+ String "/" ("" +:+ String "/" (h +:+ String "/" (id +:+ String "/"
           (ver +:+ String "/" (net +:+ String "/" (proto +:+ String "/" suffix))))))).
  by rewrite !segments_app_slash.
Qed.

(** [getHttpEndpoint] as one equation: the specification's format over the
    effective host, version, network and suffix. *)
Lemma getHttpEndpoint_run (config : option TonAccessConfig) (w : World) :
  getHttpEndpoint config w =
    (Fulfilled
       (spec_build ((config ≫= host) ||| "ton.access.orbs.network") "[node-id]"
          (Number_toString ((config ≫= accessVersion) ||| 1%Z))
          (Network_str ((config ≫= network) ||| mainnet)) "toncenter-api-v2"
          (if decide (config ≫= protocol = Some fmt_rest) then "" else "jsonRPC")), w).
Proof. reflexivity. Qed.

(** ** Reading a v2 URL back *)

(** X1: for every configuration whose access version, when supplied, is a
    safe integer, the path segments of the URL [getHttpEndpoint] returns are
    the scheme [https:], an empty segment, the segments of the effective
    host, then exactly [[node-id]], the version in decimal, the network,
    [toncenter-api-v2] and the suffix, which is empty exactly when the
    format is rest and [jsonRPC] otherwise. Whatever the host holds, the
    last four segments are version, network, protocol and suffix. *)
Theorem getHttpEndpoint_url_segments (config : option TonAccessConfig) (w : World) :
  safeAccessVersion config →
  ∃ (url suffix : string),
    getHttpEndpoint config w = (Fulfilled url, w) ∧
    segments url =
      ["https:"; ""] ++ segments ((config ≫= host) ||| "ton.access.orbs.network")
      ++ ["[node-id]";
          Number_toString ((config ≫= accessVersion) ||| 1%Z);
          Network_str ((config ≫= network) ||| mainnet);
          "toncenter-api-v2";
          suffix] ∧
    (suffix = "" ↔ config ≫= protocol = Some fmt_rest) ∧
    (suffix = "jsonRPC" ↔ config ≫= protocol ≠ Some fmt_rest) ∧
    isSafeInteger ((config ≫= accessVersion) ||| 1%Z).
Proof.
  intros Hsafe.
  eexists _, (if decide (config ≫= protocol = Some fmt_rest) then "" else "jsonRPC").
  split; [apply getHttpEndpoint_run|]. split.
  - rewrite segments_spec_build, segments_Number_toString, segments_Network_str.
    by case_decide.
  - split; [|split]; [by case_decide..|by apply effective_version_safe].
Qed.

Lemma getHttpEndpoint_url_segments_witness :
  safeAccessVersion (Some customConfig) ∧
  segments "https://edge.example.org/[node-id]/2/testnet/toncenter-api-v2/jsonRPC"
    = ["https:"; ""; "edge.example.org"; "[node-id]"; "2"; "testnet";
       "toncenter-api-v2"; "jsonRPC"] ∧
  ∃ (url suffix : string),
    getHttpEndpoint (Some customConfig) freshWorld = (Fulfilled url, freshWorld) ∧
    segments url =
      ["https:"; ""]
      ++ segments ((Some customConfig ≫= host) ||| "ton.access.orbs.network")
      ++ ["[node-id]";
          Number_toString ((Some customConfig ≫= accessVersion) ||| 1%Z);
          Network_str ((Some customConfig ≫= network) ||| mainnet);
          "toncenter-api-v2";
          suffix] ∧
    (suffix = "" ↔ Some customConfig ≫= protocol = Some fmt_rest) ∧
    (suffix = "jsonRPC" ↔ Some customConfig ≫= protocol ≠ Some fmt_rest) ∧
    isSafeInteger ((Some customConfig ≫= accessVersion) ||| 1%Z).
Proof.
  assert (safeAccessVersion (Some customConfig)) as Hsafe.
  { intros v Hv. injection Hv as <-. unfold isSafeInteger, MAX_SAFE_INTEGER. lia. }
  split; [exact Hsafe|]. split; [reflexivity|].
  exact (getHttpEndpoint_url_segments (Some customConfig) freshWorld Hsafe).
Defined.

(** X2: the URL of [getHttpEndpoint] determines what it was built from: if
    two calls, on any configurations and in any worlds, fulfil with the same
    URL, then the configurations have the same effective host, access
    version and network, and either both ask for rest or neither does. *)
Theorem getHttpEndpoint_url_injective (c1 c2 : option TonAccessConfig)
    (w1 w2 : World) :
  (getHttpEndpoint c1 w1).1 = (getHttpEndpoint c2 w2).1 →
  (c1 ≫= host) ||| "ton.access.orbs.network"
    = (c2 ≫= host) ||| "ton.access.orbs.network" ∧
  (c1 ≫= accessVersion) ||| 1%Z = (c2 ≫= accessVersion) ||| 1%Z ∧
  (c1 ≫= network) ||| mainnet = (c2 ≫= network) ||| mainnet ∧
  (c1 ≫= protocol = Some fmt_rest ↔ c2 ≫= protocol = Some fmt_rest).
Proof.
  rewrite !getHttpEndpoint_run. cbn [fst]. intros Heq.
  apply (f_equal (λ r, match r with Fulfilled u => segments u | Rejected _ => [] end))
    in Heq.
  lazy beta iota in Heq.
  rewrite !segments_spec_build, !segments_Number_toString, !segments_Network_str in Heq.
  apply (inj (app ["https:"; ""])) in Heq.
  assert (∀ (b : bool), segments (if b then "" else "jsonRPC")
                        = [if b then "" else "jsonRPC"]) as Hsuffix by (by intros []).
  assert (∀ P (d : Decision P), (if d then "" else "jsonRPC")
            = if bool_decide P then "" else "jsonRPC") as Hbool
    by (intros P d; unfold bool_decide; by destruct d).
  rewrite !Hbool, !Hsuffix in Heq.
  apply app_inj_2 in Heq as [Hhost Htail]; [|done].
  injection Htail as Hver Hnet Hfmt.
  split; [by apply segments_inj|].
  split; [by apply (inj pretty)|].
  split; [by apply Network_str_inj|].
  do 2 case_bool_decide; try done; naive_solver.
Qed.

Lemma getHttpEndpoint_url_injective_witness :
  (getHttpEndpoint None freshWorld).1
    = (getHttpEndpoint
         (Some (mkConfig (Some mainnet) (Some "") (Some 0%Z) (Some fmt_json_rpc)))
         worldAfter9min).1 ∧
  (None ≫= accessVersion) ||| 1%Z
    = (Some (mkConfig (Some mainnet) (Some "") (Some 0%Z) (Some fmt_json_rpc))
         ≫= accessVersion) ||| 1%Z.
Proof.
  assert ((getHttpEndpoint None freshWorld).1
    = (getHttpEndpoint
         (Some (mkConfig (Some mainnet) (Some "") (Some 0%Z) (Some fmt_json_rpc)))
         worldAfter9min).1) as Heq by reflexivity.
  split; [exact Heq|].
  exact (proj1 (proj2 (getHttpEndpoint_url_injective _ _ _ _ Heq))).
Defined.

(** ** The V4 methods *)

(** [getHttpV4Endpoint] as one equation, when the format is not json-rpc. *)
Lemma getHttpV4Endpoint_run (config : option TonAccessConfig) (w : World) :
  config ≫= protocol ≠ Some fmt_json_rpc →
  getHttpV4Endpoint config w =
    (Fulfilled
       (("https://" +:+ ((config ≫= host) ||| "ton.access.orbs.network") +:+ "/")
        +:+ "[node-id]"
        +:+ ("/" +:+ Number_toString ((config ≫= accessVersion) ||| 1%Z) +:+ "/"
             +:+ Network_str ((config ≫= network) ||| mainnet) +:+ "/ton-api-v4")), w).
Proof.
  intros Hfmt. unfold_facade. case_decide; [done|].
  rewrite !string_app_assoc. reflexivity.
Qed.

(** X3: for every configuration whose format is not json-rpc and whose
    access version, when supplied, is a safe integer, the URL of
    [getHttpV4Endpoint] is
    [https://{host}/[node-id]/{version}/{network}/ton-api-v4], the version
    in decimal, over the same effective host, version and network
    [getHttpEndpoint] uses for its v2 URL: an omitted or empty host is
    [ton.access.orbs.network], an omitted or zero version is 1, an omitted
    network is mainnet, and anything else is used as supplied. *)
Theorem getHttpV4Endpoint_url_shape (config : option TonAccessConfig) (w : World) :
  config ≫= protocol ≠ Some fmt_json_rpc →
  safeAccessVersion config →
  ∃ (h : string) (v : Z) (n : Network) (suffix : string),
    getHttpV4Endpoint config w =
      (Fulfilled ("https://" +:+ h +:+ "/" +:+ "[node-id]" +:+ "/" +:+ Number_toString v
                  +:+ "/" +:+ Network_str n +:+ "/" +:+ EdgeProtocol_str ton_api_v4), w) ∧
    getHttpEndpoint config w =
      (Fulfilled (spec_build h "[node-id]" (Number_toString v) (Network_str n)
                    (EdgeProtocol_str toncenter_api_v2) suffix), w) ∧
    (config ≫= host = None ∨ config ≫= host = Some "" → h = "ton.access.orbs.network") ∧
    (∀ h', config ≫= host = Some h' → h' ≠ "" → h = h') ∧
    (config ≫= accessVersion = None ∨ config ≫= accessVersion = Some 0%Z → v = 1%Z) ∧
    (∀ v', config ≫= accessVersion = Some v' → v' ≠ 0%Z → v = v') ∧
    (config ≫= network = None → n = mainnet) ∧
    (∀ n', config ≫= network = Some n' → n = n') ∧
    isSafeInteger v.
Proof.
  intros Hfmt Hsafe.
  destruct (effective_version_safe config Hsafe) as [Hlo Hhi].
  exists ((config ≫= host) ||| "ton.access.orbs.network"),
         ((config ≫= accessVersion) ||| 1%Z),
         ((config ≫= network) ||| mainnet),
         (if decide (config ≫= protocol = Some fmt_rest) then "" else "jsonRPC").
  split.
  { rewrite getHttpV4Endpoint_run by done. rewrite !string_app_assoc. reflexivity. }
  split; [reflexivity|].
  repeat split.
  - by intros [-> | ->].
  - intros h' -> Hne. unfold or_else, truthy, Truthy_string.
    destruct (String.eqb_spec h' ""); done.
  - by intros [-> | ->].
  - intros v' -> Hne. unfold or_else, truthy, Truthy_number.
    destruct (Z.eqb_spec v' 0); done.
  - by intros ->.
  - intros n' ->. by destruct n'.
  - exact Hlo.
  - exact Hhi.
Qed.

Lemma getHttpV4Endpoint_url_shape_witness :
  Some customConfig ≫= protocol ≠ Some fmt_json_rpc ∧
  safeAccessVersion (Some customConfig) ∧
  getHttpV4Endpoint (Some customConfig) freshWorld
    = (Fulfilled "https://edge.example.org/[node-id]/2/testnet/ton-api-v4", freshWorld) ∧
  ∃ (h : string) (v : Z) (n : Network) (suffix : string),
    getHttpV4Endpoint (Some customConfig) freshWorld =
      (Fulfilled ("https://" +:+ h +:+ "/" +:+ "[node-id]" +:+ "/" +:+ Number_toString v
                  +:+ "/" +:+ Network_str n +:+ "/" +:+ EdgeProtocol_str ton_api_v4),
       freshWorld) ∧
    getHttpEndpoint (Some customConfig) freshWorld =
      (Fulfilled (spec_build h "[node-id]" (Number_toString v) (Network_str n)
                    (EdgeProtocol_str toncenter_api_v2) suffix), freshWorld) ∧
    (Some customConfig ≫= host = None ∨ Some customConfig ≫= host = Some ""
       → h = "ton.access.orbs.network") ∧
    (∀ h', Some customConfig ≫= host = Some h' → h' ≠ "" → h = h') ∧
    (Some customConfig ≫= accessVersion = None
       ∨ Some customConfig ≫= accessVersion = Some 0%Z → v = 1%Z) ∧
    (∀ v', Some customConfig ≫= accessVersion = Some v' → v' ≠ 0%Z → v = v') ∧
    (Some customConfig ≫= network = None → n = mainnet) ∧
    (∀ n', Some customConfig ≫= network = Some n' → n = n') ∧
    isSafeInteger v.
Proof.
  assert (Some customConfig ≫= protocol ≠ Some fmt_json_rpc) as Hfmt
    by (intros Heq; discriminate Heq).
  assert (safeAccessVersion (Some customConfig)) as Hsafe.
  { intros v Hv. injection Hv as <-. unfold isSafeInteger, MAX_SAFE_INTEGER. lia. }
  split; [exact Hfmt|]. split; [exact Hsafe|]. split; [reflexivity|].
  exact (getHttpV4Endpoint_url_shape (Some customConfig) freshWorld Hfmt Hsafe).
Defined.

(** X4: for every configuration whose format is not json-rpc,
    [getHttpV4Endpoints(config, true)] fulfils with the one-element list
    that holds the URL [getHttpV4Endpoint(config)] fulfils with; the guard
    that runs a second time inside the nested call does not reject. *)
Theorem getHttpV4Endpoints_single (config : option TonAccessConfig) (w : World) :
  config ≫= protocol ≠ Some fmt_json_rpc →
  ∃ url,
    getHttpV4Endpoint config w = (Fulfilled url, w) ∧
    getHttpV4Endpoints config (Some true) w = (Fulfilled [url], w).
Proof.
  intros Hfmt. eexists. split; [by apply getHttpV4Endpoint_run|].
  cbv beta iota delta [getHttpV4Endpoints TonAccessMCP.getHttpV4Endpoints await
                       truthy_opt truthy Truthy_boolean].
  case_decide; [done|].
  change (TonAccessMCP.getHttpV4Endpoint config w) with (getHttpV4Endpoint config w).
  by rewrite getHttpV4Endpoint_run.
Qed.

Lemma getHttpV4Endpoints_single_witness :
  None ≫= protocol ≠ Some fmt_json_rpc ∧
  ∃ url,
    getHttpV4Endpoint None freshWorld = (Fulfilled url, freshWorld) ∧
    getHttpV4Endpoints None (Some true) freshWorld = (Fulfilled [url], freshWorld).
Proof.
  assert (@mbind option _ _ _ protocol None ≠ Some fmt_json_rpc) as Hfmt
    by (intros Heq; discriminate Heq).
  split; [exact Hfmt|].
  exact (getHttpV4Endpoints_single None freshWorld Hfmt).
Defined.

(** X5: for every configuration whose format is not json-rpc,
    [getHttpV4Endpoints] with [single] false or omitted fulfils with exactly
    three URLs, pairwise different: the URL of [getHttpV4Endpoint] with its
    node id [[node-id]] replaced by [node1], [node2] and [node3] in this
    order, everything before and after the node id being the same; each
    ends with the segment [ton-api-v4]. *)
Theorem getHttpV4Endpoints_fan_out (config : option TonAccessConfig) (w : World) :
  config ≫= protocol ≠ Some fmt_json_rpc →
  ∃ (pre post : string) (urls : list string),
    getHttpV4Endpoint config w = (Fulfilled (pre +:+ "[node-id]" +:+ post), w) ∧
    urls = (λ id, pre +:+ id +:+ post) <$> ["node1"; "node2"; "node3"] ∧
    getHttpV4Endpoints config None w = (Fulfilled urls, w) ∧
    getHttpV4Endpoints config (Some false) w = (Fulfilled urls, w) ∧
    NoDup urls ∧
    Forall (λ url, last (segments url) = Some "ton-api-v4") urls.
Proof.
  intros Hfmt.
  exists ("https://" +:+ ((config ≫= host) ||| "ton.access.orbs.network") +:+ "/"),
         ("/" +:+ Number_toString ((config ≫= accessVersion) ||| 1%Z) +:+ "/"
          +:+ Network_str ((config ≫= network) ||| mainnet) +:+ "/ton-api-v4").
  eexists. split; [by apply getHttpV4Endpoint_run|]. split; [reflexivity|].
  assert (∀ single, truthy_opt single = false →
            getHttpV4Endpoints config single w =
              (Fulfilled
                 ((λ id, ("https://" +:+ ((config ≫= host) ||| "ton.access.orbs.network")
                          +:+ "/") +:+ id
                         +:+ ("/" +:+ Number_toString ((config ≫= accessVersion) ||| 1%Z)
                              +:+ "/" +:+ Network_str ((config ≫= network) ||| mainnet)
                              +:+ "/ton-api-v4"))
                    <$> ["node1"; "node2"; "node3"]), w)) as Hrun.
  { intros single Hsingle. unfold getHttpV4Endpoints, TonAccessMCP.getHttpV4Endpoints.
    case_decide; [done|]. rewrite Hsingle. unfold resolve. cbn [fmap list_fmap].
    rewrite !string_app_assoc. reflexivity. }
  split; [by apply Hrun|]. split; [by apply Hrun|]. split.
  - apply NoDup_fmap_2_strong; [|by apply (bool_decide_unpack _)].
    intros a b Ha Hb Heq. apply (inj (String.append _)) in Heq.
    apply string_app_same_length_inj in Heq as [Hab _]; [done|].
    set_unfold in Ha. set_unfold in Hb.
    destruct Ha as [->|[->|[->|[]]]]; destruct Hb as [->|[->|[->|[]]]]; reflexivity.
  - rewrite Forall_fmap. apply Forall_forall. intros id _. cbn.
    rewrite <- !string_app_assoc.
    change (?x +:+ "/ton-api-v4") with (x +:+ String "/" "ton-api-v4").
    rewrite segments_app_slash. apply last_snoc.
Qed.

Lemma getHttpV4Endpoints_fan_out_witness :
  Some customConfig ≫= protocol ≠ Some fmt_json_rpc ∧
  ∃ (pre post : string) (urls : list string),
    getHttpV4Endpoint (Some customConfig) freshWorld
      = (Fulfilled (pre +:+ "[node-id]" +:+ post), freshWorld) ∧
    urls = (λ id, pre +:+ id +:+ post) <$> ["node1"; "node2"; "node3"] ∧
    getHttpV4Endpoints (Some customConfig) None freshWorld = (Fulfilled urls, freshWorld) ∧
    getHttpV4Endpoints (Some customConfig) (Some false) freshWorld
      = (Fulfilled urls, freshWorld) ∧
    NoDup urls ∧
    Forall (λ url, last (segments url) = Some "ton-api-v4") urls.
Proof.
  assert (Some customConfig ≫= protocol ≠ Some fmt_json_rpc) as Hfmt
    by (intros Heq; discriminate Heq).
  split; [exact Hfmt|].
  exact (getHttpV4Endpoints_fan_out (Some customConfig) freshWorld Hfmt).
Defined.

(** ** Single and multiple v2 endpoints *)

(** X6: for every configuration, the three URLs of [getHttpEndpoints] with
    [single] false or omitted are the URL of [getHttpEndpoint] with its node
    id [[node-id]] replaced by [node1], [node2] and [node3] in this order:
    host, version, network, protocol and suffix are those of the single
    URL. *)
Theorem getHttpEndpoints_fan_out_of_single (config : option TonAccessConfig)
    (w : World) :
  ∃ (pre post : string) (urls : list string),
    getHttpEndpoint config w = (Fulfilled (pre +:+ "[node-id]" +:+ post), w) ∧
    urls = (λ id, pre +:+ id +:+ post) <$> ["node1"; "node2"; "node3"] ∧
    getHttpEndpoints config None w = (Fulfilled urls, w) ∧
    getHttpEndpoints config (Some false) w = (Fulfilled urls, w).
Proof.
  exists ("https://" +:+ ((config ≫= host) ||| "ton.access.orbs.network") +:+ "/"),
         ("/" +:+ Number_toString ((config ≫= accessVersion) ||| 1%Z) +:+ "/"
          +:+ Network_str ((config ≫= network) ||| mainnet) +:+ "/toncenter-api-v2/"
          +:+ (if decide (config ≫= protocol = Some fmt_rest) then "" else "jsonRPC")).
  eexists. split; [|split; [reflexivity|]].
  - unfold_facade. rewrite !string_app_assoc. reflexivity.
  - unfold_facade. cbn [truthy_opt truthy Truthy_boolean fmap list_fmap].
    rewrite !string_app_assoc. split; reflexivity.
Qed.

(** ** Configuration fields that make no difference *)

(** X7: a field whose value is falsy counts as omitted. For all four HTTP
    methods, in every world and for every [single], a configuration with the
    empty string as host settles as the one without a host, a configuration
    with access version 0 as the one without a version, and the
    configuration with no field at all as no configuration. *)
Theorem falsy_fields_count_as_omitted (n : option Network) (h : option string)
    (v : option Z) (p : option ProtocolFormat) :
  alikeForV2 (Some (mkConfig n (Some "") v p)) (Some (mkConfig n None v p)) ∧
  alikeForV4 (Some (mkConfig n (Some "") v p)) (Some (mkConfig n None v p)) ∧
  alikeForV2 (Some (mkConfig n h (Some 0%Z) p)) (Some (mkConfig n h None p)) ∧
  alikeForV4 (Some (mkConfig n h (Some 0%Z) p)) (Some (mkConfig n h None p)) ∧
  alikeForV2 (Some (mkConfig None None None None)) None ∧
  alikeForV4 (Some (mkConfig None None None None)) None.
Proof.
  unfold alikeForV2, alikeForV4.
  repeat split; do 2 unfold_facade; destruct (truthy_opt single); reflexivity.
Qed.

(** X8: the v2 methods read the format only to tell rest from the others:
    for every configuration whose format is default, json-rpc or omitted,
    [getHttpEndpoint] and [getHttpEndpoints] settle as they do with the
    format omitted, and they fulfil; json-rpc, which the V4 methods reject,
    is accepted. *)
Theorem v2_format_other_than_rest_ignored (n : option Network) (h : option string)
    (v : option Z) (p : option ProtocolFormat) :
  p ≠ Some fmt_rest →
  alikeForV2 (Some (mkConfig n h v p)) (Some (mkConfig n h v None)) ∧
  ∀ single w, ∃ url urls,
    getHttpEndpoint (Some (mkConfig n h v p)) w = (Fulfilled url, w) ∧
    getHttpEndpoints (Some (mkConfig n h v p)) single w = (Fulfilled urls, w).
Proof.
  intros Hfmt. split.
  - intros single w. do 2 unfold_facade. cbn [mbind option_bind protocol].
    case_decide; [done|]. by split.
  - intros single w. do 2 unfold_facade. destruct (truthy_opt single); by eexists _, _.
Qed.

Lemma v2_format_other_than_rest_ignored_witness :
  Some fmt_json_rpc ≠ Some fmt_rest ∧
  alikeForV2 (Some jsonRpcConfig)
    (Some (mkConfig (Some testnet) (Some "edge.example.org") (Some 2%Z) None)).
Proof.
  assert (Some fmt_json_rpc ≠ Some fmt_rest) as Hfmt by (intros Heq; discriminate Heq).
  split; [exact Hfmt|].
  exact (proj1 (v2_format_other_than_rest_ignored (Some testnet)
                  (Some "edge.example.org") (Some 2%Z) (Some fmt_json_rpc) Hfmt)).
Defined.

(** X9: the V4 methods read the format only for their guard: for every
    configuration whose format is default, rest or omitted,
    [getHttpV4Endpoint] and [getHttpV4Endpoints] settle as they do with the
    format omitted; asking for rest changes nothing in a V4 URL. *)
Theorem v4_format_other_than_json_rpc_ignored (n : option Network)
    (h : option string) (v : option Z) (p : option ProtocolFormat) :
  p ≠ Some fmt_json_rpc →
  alikeForV4 (Some (mkConfig n h v p)) (Some (mkConfig n h v None)).
Proof.
  intros Hfmt single w. do 2 unfold_facade. cbn [mbind option_bind protocol].
  destruct (truthy_opt single); repeat case_decide; done.
Qed.

Lemma v4_format_other_than_json_rpc_ignored_witness :
  Some fmt_rest ≠ Some fmt_json_rpc ∧
  alikeForV4 (Some (mkConfig None None None (Some fmt_rest)))
    (Some (mkConfig None None None None)).
Proof.
  assert (Some fmt_rest ≠ Some fmt_json_rpc) as Hfmt by (intros Heq; discriminate Heq).
  split; [exact Hfmt|].
  exact (v4_format_other_than_json_rpc_ignored None None None (Some fmt_rest) Hfmt).
Defined.

(** ** The validation script *)

(** Statements that leave the world alone and append to the console
    compose. *)
Lemma andThen_appends (s1 s2 : Validate.Script) (w : World)
    (c1 c2 : list Validate.ConsoleCall) :
  (∀ out, s1 (w, out) = (w, out ++ c1)) →
  (∀ out, s2 (w, out) = (w, out ++ c2)) →
  ∀ out, Validate.andThen s1 s2 (w, out) = (w, out ++ (c1 ++ c2)).
Proof.
  intros H1 H2 out. unfold Validate.andThen. by rewrite H1, H2, app_assoc.
Qed.

(** A [try] whose awaited promise fulfils runs its body and not its
    handler. *)
Lemma try_await_fulfilled {A : Type} (p : Promise A) (body : A → Validate.Script)
    (handler : Error → Validate.Script) (w : World) (a : A)
    (c : list Validate.ConsoleCall) :
  p w = (Fulfilled a, w) →
  (∀ out, body a (w, out) = (w, out ++ c)) →
  ∀ out, Validate.try_await p body handler (w, out) = (w, out ++ c).
Proof. intros Hp Hbody out. unfold Validate.try_await. by rewrite Hp. Qed.

(** A [try] whose awaited promise rejects runs its handler on the error. *)
Lemma try_await_rejected {A : Type} (p : Promise A) (body : A → Validate.Script)
    (handler : Error → Validate.Script) (w : World) (e : Error)
    (c : list Validate.ConsoleCall) :
  p w = (Rejected e, w) →
  (∀ out, handler e (w, out) = (w, out ++ c)) →
  ∀ out, Validate.try_await p body handler (w, out) = (w, out ++ c).
Proof. intros Hp Hhandler out. unfold Validate.try_await. by rewrite Hp. Qed.

(** X10: run in any world and after any console output, [validateMCP]
    finds every one of its fourteen checks passed: it appends eighteen
    calls, all of them [console.log] and none [console.error]; the check of
    the V4 guard goes through its [catch] branch and logs the guard's
    message; the last call logs [Validation complete!]; the world is left as
    it was. *)
Theorem validateMCP_reports_no_failure (w : World) (out : list Validate.ConsoleCall) :
  ∃ calls,
    Validate.validateMCP (w, out) = (w, out ++ calls) ∧
    length calls = 18 ∧
    forallb Validate.isLog calls = true ∧
    Validate.console_log
      [Validate.VString "✅ getHttpV4Endpoint correctly failed with json-rpc protocol:";
       Validate.VString (message UnsupportedProtocolError)] ∈ calls ∧
    last calls
      = Some (Validate.console_log
                [Validate.VString (Validate.nl "Validation complete!")]).
Proof.
  eexists. split.
  - revert out. unfold Validate.validateMCP.
    repeat (eapply andThen_appends);
      first
        [ intros out; reflexivity
        | eapply try_await_fulfilled; [reflexivity|intros out; reflexivity]
        | eapply try_await_rejected; [reflexivity|intros out; reflexivity] ].
  - split; [reflexivity|]. split; [reflexivity|]. split; [|reflexivity].
    set_solver.
Qed.

(** ** rest and JSON-RPC URLs *)

(** X11: the JSON-RPC URL is the rest URL followed by [jsonRPC]. For every
    network, host and version, if [getHttpEndpoint] with the format rest
    fulfils with [base], then with any other format (or none) it fulfils
    with [base] followed by [jsonRPC]; the same holds, URL by URL, for the
    lists of [getHttpEndpoints]. *)
Theorem jsonRPC_url_extends_rest_url (n : option Network) (h : option string)
    (v : option Z) (p : option ProtocolFormat) (single : option bool) (w : World) :
  p ≠ Some fmt_rest →
  ∃ (base : string) (bases : list string),
    getHttpEndpoint (Some (mkConfig n h v (Some fmt_rest))) w = (Fulfilled base, w) ∧
    getHttpEndpoint (Some (mkConfig n h v p)) w = (Fulfilled (base +:+ "jsonRPC"), w) ∧
    getHttpEndpoints (Some (mkConfig n h v (Some fmt_rest))) single w
      = (Fulfilled bases, w) ∧
    getHttpEndpoints (Some (mkConfig n h v p)) single w
      = (Fulfilled ((λ url, url +:+ "jsonRPC") <$> bases), w).
Proof.
  intros Hfmt. do 2 unfold_facade. cbn [mbind option_bind protocol].
  repeat case_decide; try done.
  destruct (truthy_opt single); eexists _, _;
    (split; [reflexivity|]);
    (split; [by rewrite !string_app_assoc|]);
    (split; [reflexivity|]);
    cbn [fmap list_fmap]; by rewrite !string_app_assoc.
Qed.

Lemma jsonRPC_url_extends_rest_url_witness :
  None ≠ Some fmt_rest ∧
  ∃ (base : string) (bases : list string),
    getHttpEndpoint (Some restConfig) freshWorld = (Fulfilled base, freshWorld) ∧
    getHttpEndpoint (Some (mkConfig None None None None)) freshWorld
      = (Fulfilled (base +:+ "jsonRPC"), freshWorld) ∧
    getHttpEndpoints (Some restConfig) None freshWorld = (Fulfilled bases, freshWorld) ∧
    getHttpEndpoints (Some (mkConfig None None None None)) None freshWorld
      = (Fulfilled ((λ url, url +:+ "jsonRPC") <$> bases), freshWorld).
Proof.
  assert (@None ProtocolFormat ≠ Some fmt_rest) as Hfmt
    by (intros Heq; discriminate Heq).
  split; [exact Hfmt|].
  exact (jsonRPC_url_extends_rest_url None None None None None freshWorld Hfmt).
Defined.
